(** * svcs.django: the Django adapter of the svcs service locator

    A shallow embedding of [src/svcs/django.py].  The adapter is glue code:
    it reads and writes attributes of framework objects and calls methods of
    the core [Registry] and [Container] classes.  Python objects live in a
    store indexed by locations, so that object identity, aliasing and
    in-place mutation are visible in the statements. *)

From Stdlib Require Import ZArith.
From stdpp Require Import gmap strings list fin_maps.

Open Scope string_scope.

(** ** Values, exceptions, classes *)

Abbreviation loc := positive.

(** A Python value: an immediate, or a reference to an object of the store. *)
Inductive pyobj : Type :=
| PyNone
| PyBool (b : bool)
| PyInt (z : Z)
| PyStr (s : string)
| PyFunc (name : string)
| PyRef (l : loc).

#[global] Instance pyobj_eq_dec : EqDecision pyobj.
Proof. solve_decision. Defined.

(** The exceptions the adapter and its collaborators raise.  [Raised] stands
    for whatever else a handler or a core method raises. *)
Inductive exn : Type :=
| ValueError (args : list pyobj)
| TypeError (args : list pyobj)
| AttributeError
| LookupError
| Raised (name : string).

(** The classes whose instances the adapter touches.  [ExampleAppConfig] is
    the subclass [(DjangoSvcsAppConfigMixin, AppConfig)] of the integration
    test.  [C_UserAppConfig mixin truth] is an [AppConfig] subclass of a
    project's own: with or without the mixin among its bases, and with the
    truth value its [__bool__] or [__len__] gives its instances ([true] when
    it defines neither). *)
Inductive pyclass : Type :=
| C_HttpRequest
| C_AppConfig
| C_DjangoSvcsAppConfigMixin
| C_DjangoSvcsAppConfig
| C_ExampleAppConfig
| C_UserAppConfig (mixin : bool) (truth : bool).

(** [issubclass(cls, DjangoSvcsAppConfigMixin)]. *)
Definition is_mixin (cls : pyclass) : bool :=
  match cls with
  | C_DjangoSvcsAppConfigMixin | C_DjangoSvcsAppConfig | C_ExampleAppConfig => true
  | C_HttpRequest | C_AppConfig => false
  | C_UserAppConfig mixin _ => mixin
  end.

(** The truth value of an instance in a condition: Python asks the class.
    The classes of the adapter, of Django and of the test define neither
    [__bool__] nor [__len__], so their instances are true. *)
Definition class_truth (cls : pyclass) : bool :=
  match cls with
  | C_UserAppConfig _ truth => truth
  | _ => true
  end.

(** Class-level attributes: [DjangoSvcsAppConfigMixin] declares
    [registry: Registry | None = None], inherited by its subclasses;
    [DjangoSvcsAppConfig] declares [name = "svcs.django"]. *)
Definition class_attr (cls : pyclass) (name : string) : option pyobj :=
  if is_mixin cls && String.eqb name "registry" then Some PyNone
  else match cls with
       | C_DjangoSvcsAppConfig =>
           if String.eqb name "name" then Some (PyStr "svcs.django") else None
       | _ => None
       end.

(** ** The store *)

(** What [Registry.register_factory] and [Registry.register_value] were
    given for one service type. *)
Inductive recipe : Type :=
| Factory (factory : pyobj)
| Value (value : pyobj).

Record RegisteredService : Type := mkRegisteredService {
  rs_recipe : recipe;
  rs_enter : bool;
  rs_ping : pyobj;
  rs_on_registry_close : pyobj
}.

(** Modelled from the spec: the classes [Registry] and [Container] of
    [svcs._core], which is not among the sources.  A registry holds
    service-type-to-factory bindings; a container is built from a registry
    and caches the services it has instantiated.  Neither the spec nor the
    adapter gives them a truth value or a length, so they are plain objects
    (always true in a condition). *)
Inductive object : Type :=
| ORegistry (services : gmap string RegisteredService)
| OContainer (registry : pyobj) (instantiated : gmap string pyobj)
| OInstance (cls : pyclass) (dict : gmap string pyobj).

(** The interpreter state: the object store and Django's application
    registry [django.apps.apps], a table from labels to app configs. *)
Record State : Type := mkState {
  heap : gmap loc object;
  app_configs : gmap string loc
}.

Definition set_heap (s : State) (h : gmap loc object) : State :=
  mkState h (app_configs s).

(** ** A state-and-exception monad

    A raised exception keeps the mutations made before it. *)

Inductive result (A : Type) : Type :=
| Ok (a : A)
| Raise (e : exn).
Arguments Ok {A} a.
Arguments Raise {A} e.

Definition M (A : Type) : Type := State -> result A * State.

Definition ret {A} (a : A) : M A := fun s => (Ok a, s).
Definition raise {A} (e : exn) : M A := fun s => (Raise e, s).
Definition bind {A B} (m : M A) (k : A -> M B) : M B :=
  fun s => match m s with
           | (Ok a, s') => k a s'
           | (Raise e, s') => (Raise e, s')
           end.

Declare Scope py_scope.
Delimit Scope py_scope with py.
Notation "x <- m ;; k" := (bind m (fun x => k))
  (at level 100, m at next level, right associativity) : py_scope.
Notation "m ;; k" := (bind m (fun _ => k))
  (at level 100, right associativity) : py_scope.
Open Scope py_scope.

(** ** Python primitives *)

(** [bool(x)] on a value by itself: [None], [False], [0] and the empty
    string are false; functions are true, and so is a reference, which is
    the test as it applies to a [Registry | None] attribute (a registry is a
    plain object).  For an instance whose class may decide otherwise, see
    [truth] below. *)
Definition truthy (x : pyobj) : bool :=
  match x with
  | PyNone => false
  | PyBool b => b
  | PyInt z => negb (Z.eqb z 0)
  | PyStr s => negb (String.eqb s "")
  | PyFunc _ => true
  | PyRef _ => true
  end.

(** [bool(x)] with the store at hand: the truth value of an instance is the
    one its class gives it; registries and containers are plain objects. *)
Definition truth (x : pyobj) : M bool :=
  fun s =>
    match x with
    | PyRef l =>
        match heap s !! l with
        | Some (OInstance cls _) => (Ok (class_truth cls), s)
        | _ => (Ok true, s)
        end
    | _ => (Ok (truthy x), s)
    end.

(** [getattr(o, name)]: the instance dictionary first, then the class; a
    container exposes the registry it was built from as [registry]. *)
Definition getattr (o : pyobj) (name : string) : M pyobj :=
  fun s =>
    match o with
    | PyRef l =>
        match heap s !! l with
        | Some (OInstance cls d) =>
            match d !! name with
            | Some v => (Ok v, s)
            | None =>
                match class_attr cls name with
                | Some v => (Ok v, s)
                | None => (Raise AttributeError, s)
                end
            end
        | Some (OContainer registry _) =>
            if String.eqb name "registry" then (Ok registry, s)
            else (Raise AttributeError, s)
        | _ => (Raise AttributeError, s)
        end
    | _ => (Raise AttributeError, s)
    end.

(** [setattr(o, name, v)] on an instance with a dictionary. *)
Definition setattr (o : pyobj) (name : string) (v : pyobj) : M pyobj :=
  fun s =>
    match o with
    | PyRef l =>
        match heap s !! l with
        | Some (OInstance cls d) =>
            (Ok PyNone, set_heap s (<[l := OInstance cls (<[name := v]> d)]> (heap s)))
        | _ => (Raise AttributeError, s)
        end
    | _ => (Raise AttributeError, s)
    end.

(** [isinstance(o, DjangoSvcsAppConfigMixin)]. *)
Definition isinstance_mixin (o : pyobj) : M bool :=
  fun s =>
    match o with
    | PyRef l =>
        match heap s !! l with
        | Some (OInstance cls _) => (Ok (is_mixin cls), s)
        | _ => (Ok false, s)
        end
    | _ => (Ok false, s)
    end.

(** Object creation: the new object gets a location not yet in the store. *)
Definition alloc (o : object) : M pyobj :=
  fun s =>
    let l := fresh (dom (heap s)) in
    (Ok (PyRef l), set_heap s (<[l := o]> (heap s))).

(** [django.apps.apps.get_app_config(label)]: the app config installed under
    the label, [LookupError] when there is none. *)
Definition apps_get_app_config (label : string) : M pyobj :=
  fun s =>
    match app_configs s !! label with
    | Some l => (Ok (PyRef l), s)
    | None => (Raise LookupError, s)
    end.

(** ** The core collaborators *)

Module Registry.

(** Modelled from the spec: [Registry()], a registry without bindings. *)
Definition new : M pyobj := alloc (ORegistry ∅).

(** Modelled from the spec: the binding of a service type, replacing an
    earlier one for the same type ([overwrite_factory] relies on this). *)
Definition bind_service (self : pyobj) (svc_type : string)
    (rs : RegisteredService) : M pyobj :=
  fun s =>
    match self with
    | PyRef l =>
        match heap s !! l with
        | Some (ORegistry services) =>
            (Ok PyNone,
             set_heap s (<[l := ORegistry (<[svc_type := rs]> services)]> (heap s)))
        | _ => (Raise AttributeError, s)
        end
    | _ => (Raise AttributeError, s)
    end.

(** Modelled from the spec: [Registry.register_factory(svc_type, factory,
    enter=, ping=, on_registry_close=)]. *)
Definition register_factory (self : pyobj) (svc_type : string)
    (factory : pyobj) (enter : bool) (ping on_registry_close : pyobj)
    : M pyobj :=
  bind_service self svc_type
    (mkRegisteredService (Factory factory) enter ping on_registry_close).

(** Modelled from the spec: [Registry.register_value(svc_type, value,
    enter=, ping=, on_registry_close=)]. *)
Definition register_value (self : pyobj) (svc_type : string)
    (value : pyobj) (enter : bool) (ping on_registry_close : pyobj)
    : M pyobj :=
  bind_service self svc_type
    (mkRegisteredService (Value value) enter ping on_registry_close).

End Registry.

Module Container.

(** Modelled from the spec: [Container(registry)], a container built from
    a registry, with nothing instantiated yet. *)
Definition new (registry : pyobj) : M pyobj := alloc (OContainer registry ∅).

(** Modelled from the spec: [Container.close()], which resets the
    instantiation cache (docstring of [overwrite_factory]). *)
Definition close (self : pyobj) : M pyobj :=
  fun s =>
    match self with
    | PyRef l =>
        match heap s !! l with
        | Some (OContainer registry _) =>
            (Ok PyNone, set_heap s (<[l := OContainer registry ∅]> (heap s)))
        | _ => (Raise AttributeError, s)
        end
    | _ => (Raise AttributeError, s)
    end.

(** [self.get] applied to the service types, on whatever [self] is: the method exists on
    containers only.  The method body is core code outside the adapter and
    is taken as a parameter. *)
Definition get (Container_get : loc -> list string -> M pyobj)
    (self : pyobj) (svc_types : list string) : M pyobj :=
  fun s =>
    match self with
    | PyRef l =>
        match heap s !! l with
        | Some (OContainer _ _) => Container_get l svc_types s
        | _ => (Raise AttributeError, s)
        end
    | _ => (Raise AttributeError, s)
    end.

End Container.

(** ** The adapter, function by function *)

(** Modelled from the spec: the container key [_KEY_CONTAINER] of
    [svcs._core]; the integration test reads the stashed container as
    [request.svcs_container]. *)
Definition _KEY_CONTAINER : string := "svcs_container".

(** [svcs_from(request)]. *)
Definition svcs_from (request : pyobj) : M pyobj :=
  getattr request _KEY_CONTAINER.

(** [get_registry(app)]. *)
Definition get_registry (app : pyobj) : M pyobj :=
  r <- getattr app "registry" ;;
  if negb (truthy r) then raise (ValueError [])
  else getattr app "registry".

(** [register_factory(config, svc_type, factory, *, enter=True, ping=None,
    on_registry_close=None)]; an omitted keyword argument is [None] here. *)
Definition register_factory (config : pyobj) (svc_type : string)
    (factory : pyobj) (enter : option bool)
    (ping on_registry_close : option pyobj) : M pyobj :=
  let enter := default true enter in
  let ping := default PyNone ping in
  let on_registry_close := default PyNone on_registry_close in
  registry <- getattr config "registry" ;;
  Registry.register_factory registry svc_type factory enter ping
    on_registry_close ;;
  ret PyNone.

(** [register_value(config, svc_type, value, *, enter=False, ping=None,
    on_registry_close=None)]. *)
Definition register_value (config : pyobj) (svc_type : string)
    (value : pyobj) (enter : option bool)
    (ping on_registry_close : option pyobj) : M pyobj :=
  let enter := default false enter in
  let ping := default PyNone ping in
  let on_registry_close := default PyNone on_registry_close in
  registry <- getattr config "registry" ;;
  Registry.register_value registry svc_type value enter ping
    on_registry_close ;;
  ret PyNone.

(** [overwrite_factory(request, svc_type, factory, *, enter=True, ping=None,
    on_registry_close=None)]. *)
Definition overwrite_factory (request : pyobj) (svc_type : string)
    (factory : pyobj) (enter : option bool)
    (ping on_registry_close : option pyobj) : M pyobj :=
  let enter := default true enter in
  let ping := default PyNone ping in
  let on_registry_close := default PyNone on_registry_close in
  container <- svcs_from request ;;
  registry <- getattr container "registry" ;;
  Registry.register_factory registry svc_type factory enter ping
    on_registry_close ;;
  Container.close container ;;
  ret PyNone.

Module DjangoSvcsAppConfigMixin.

(** [ready(self)]. *)
Definition ready (self : pyobj) : M pyobj :=
  r <- getattr self "registry" ;;
  if negb (truthy r) then
    registry <- Registry.new ;;
    setattr self "registry" registry ;;
    ret PyNone
  else ret PyNone.

End DjangoSvcsAppConfigMixin.

Module SvcsMiddleware.

Record t : Type := mk { get_response : pyobj -> M pyobj }.

(** [__init__(self, get_response)]. *)
Definition __init__ (get_response : pyobj -> M pyobj) : t := mk get_response.

(** [_get_registry(self)]. *)
Definition _get_registry (self : t) : M pyobj :=
  app <- apps_get_app_config "django" ;;
  app_is_true <- truth app ;;
  if negb app_is_true then raise (ValueError [app])
  else
    is_inst <- isinstance_mixin app ;;
    if negb is_inst then raise (TypeError [app])
    else get_registry app.

(** [__call__(self, request)]. *)
Definition __call__ (self : t) (request : pyobj) : M pyobj :=
  registry <- _get_registry self ;;
  container <- Container.new registry ;;
  setattr request _KEY_CONTAINER container ;;
  get_response self request.

End SvcsMiddleware.

(** [get(request, svc_type1, ..., svc_typeN)], the variadic [get]. *)
Definition get (Container_get : loc -> list string -> M pyobj)
    (request : pyobj) (svc_types : list string) : M pyobj :=
  container <- svcs_from request ;;
  Container.get Container_get container svc_types.


(** * Properties *)

(** ** Running scenario

    A booted project: the app config of [svcs.django] is installed under the
    label [django] (object 1) and a request has come in (object 2). *)

Definition s_boot : State :=
  mkState
    (<[2%positive := OInstance C_HttpRequest ∅]>
       {[ 1%positive := OInstance C_DjangoSvcsAppConfig ∅ ]})
    {[ "django" := 1%positive ]}.

(** After Django has run the [ready] hook of the app config. *)
Definition s_ready : State :=
  (DjangoSvcsAppConfigMixin.ready (PyRef 1) s_boot).2.

(** The state in which the view of request 2 runs: the middleware has
    stashed a container and hands over to a handler that does nothing. *)
Definition s_view : State :=
  (SvcsMiddleware.__call__ (SvcsMiddleware.mk (fun _ => ret PyNone))
     (PyRef 2) s_ready).2.

(** Whether a registry holds the given factory for the service type. *)
Definition holds_factory (s : State) (registry : pyobj) (svc_type : string)
    (factory : pyobj) : bool :=
  match registry with
  | PyRef r =>
      match heap s !! r with
      | Some (ORegistry services) =>
          match rs_recipe <$> services !! svc_type with
          | Some (Factory f) => bool_decide (f = factory)
          | _ => false
          end
      | _ => false
      end
  | _ => false
  end.

(** The view of request 2 overwrites the factory of [Service]. *)
Definition s_overwritten : State :=
  (overwrite_factory (PyRef 2) "Service" (PyFunc "fake_service")
     None None None s_view).2.

(** The binding a registry holds for a service type, if any. *)
Definition binding_of (s : State) (registry : pyobj) (svc_type : string)
    : option RegisteredService :=
  match registry with
  | PyRef r =>
      match heap s !! r with
      | Some (ORegistry services) => services !! svc_type
      | _ => None
      end
  | _ => None
  end.

(** The fixture [_clean_app_ctx(request, registry, app)] of the integration
    test, whose body is [app.registry = registry]. *)
Definition _clean_app_ctx (request registry app : pyobj) : M pyobj :=
  setattr app "registry" registry ;;
  ret PyNone.

(** A project with a second app config, the [ExampleAppConfig] instance of
    the integration test (object 3), which Django does not know by label. *)
Definition s_two_configs : State :=
  mkState
    (<[3%positive := OInstance C_ExampleAppConfig ∅]> (heap s_boot))
    (app_configs s_boot).

(** The test's fixtures at work: besides the two configs there is the
    registry of the [registry] fixture (object 4). *)
Definition s_fixture : State := (Registry.new s_two_configs).2.



(** A project whose label [django] belongs to a plain [AppConfig]. *)
Definition s_plain_config : State :=
  mkState
    (<[2%positive := OInstance C_HttpRequest ∅]>
       {[ 1%positive := OInstance C_AppConfig ∅ ]})
    {[ "django" := 1%positive ]}.

(** ** Basic facts about the store *)

Lemma fresh_not_allocated (s : State) : heap s !! fresh (dom (heap s)) = None.
Proof. apply not_elem_of_dom, is_fresh. Qed.

Lemma allocated_not_fresh (s : State) (l : loc) (o : object) :
  heap s !! l = Some o -> l <> fresh (dom (heap s)).
Proof.
  intros Hl ->. rewrite fresh_not_allocated in Hl. discriminate.
Qed.

Lemma key_is_not_class_attr (cls : pyclass) :
  class_attr cls _KEY_CONTAINER = None.
Proof. destruct cls as [ | | | | |[|] ?]; reflexivity. Qed.

Lemma registry_class_default (cls : pyclass) :
  is_mixin cls = true -> class_attr cls "registry" = Some PyNone.
Proof. intros H. unfold class_attr. rewrite H. reflexivity. Qed.

(** Reading an attribute never changes the state. *)
Lemma getattr_pure (o : pyobj) (name : string) (s : State) :
  (getattr o name s).2 = s.
Proof.
  unfold getattr. destruct o; try reflexivity.
  destruct (heap s !! l) as [[ | | cls d]|]; try reflexivity.
  - destruct (String.eqb name "registry"); reflexivity.
  - destruct (d !! name); [reflexivity|].
    destruct (class_attr cls name); reflexivity.
Qed.

(** The [registry] attribute of an instance of the mixin: the instance
    dictionary when it has the entry, the class default [None] otherwise. *)
Lemma getattr_registry_mixin (s : State) (l : loc) cls d :
  heap s !! l = Some (OInstance cls d) -> is_mixin cls = true ->
  getattr (PyRef l) "registry" s = (Ok (default PyNone (d !! "registry")), s).
Proof.
  intros Hl Hc. unfold getattr. rewrite Hl.
  destruct (d !! "registry"); [reflexivity|].
  rewrite (registry_class_default _ Hc). reflexivity.
Qed.

Lemma get_registry_pure (app : pyobj) (s : State) :
  (get_registry app s).2 = s.
Proof.
  unfold get_registry, bind, raise.
  pose proof (getattr_pure app "registry" s) as Hp.
  destruct (getattr app "registry" s) as [[r|e] s'] eqn:Hg; simpl in Hp; subst s'.
  - destruct (negb (truthy r)); [reflexivity|]. rewrite Hg. reflexivity.
  - reflexivity.
Qed.

(** ** C5: [svcs_from] *)

(** The attribute read behind [svcs_from], on a request that has the entry. *)
Lemma svcs_from_reads_stash_aux (s : State) (l : loc) cls d (v : pyobj) :
  heap s !! l = Some (OInstance cls d) ->
  d !! _KEY_CONTAINER = Some v ->
  svcs_from (PyRef l) s = (Ok v, s).
Proof.
  intros Hl Hv. unfold svcs_from, getattr. rewrite Hl, Hv. reflexivity.
Qed.

(** C5. [svcs_from(request)] returns the value stashed in the request's
    attributes under the container key, and the state after the call is the
    state before it: the request is not modified. *)
Theorem svcs_from_reads_stash (s : State) (l : loc) cls d (v : pyobj) :
  heap s !! l = Some (OInstance cls d) ->
  d !! _KEY_CONTAINER = Some v ->
  svcs_from (PyRef l) s = (Ok v, s).
Proof. apply svcs_from_reads_stash_aux. Qed.

(** Without a stashed container the read fails, still without effect. *)
Lemma svcs_from_nothing_stashed (s : State) (l : loc) cls d :
  heap s !! l = Some (OInstance cls d) ->
  d !! _KEY_CONTAINER = None ->
  svcs_from (PyRef l) s = (Raise AttributeError, s).
Proof.
  intros Hl Hv. unfold svcs_from, getattr.
  rewrite Hl, Hv, key_is_not_class_attr. reflexivity.
Qed.

(** ** C2: [get_registry] *)

Lemma get_registry_set (s : State) (l : loc) cls d (r : loc) :
  heap s !! l = Some (OInstance cls d) ->
  is_mixin cls = true ->
  d !! "registry" = Some (PyRef r) ->
  get_registry (PyRef l) s = (Ok (PyRef r), s).
Proof.
  intros Hl Hc Hr. unfold get_registry, bind, raise.
  rewrite (getattr_registry_mixin _ _ _ _ Hl Hc), Hr.
  cbn [default from_option id truthy negb].
  rewrite (getattr_registry_mixin _ _ _ _ Hl Hc), Hr. reflexivity.
Qed.

Lemma get_registry_unset (s : State) (l : loc) cls d :
  heap s !! l = Some (OInstance cls d) ->
  is_mixin cls = true ->
  d !! "registry" = None \/ d !! "registry" = Some PyNone ->
  get_registry (PyRef l) s = (Raise (ValueError []), s).
Proof.
  intros Hl Hc Hr. unfold get_registry, bind, raise.
  rewrite (getattr_registry_mixin _ _ _ _ Hl Hc).
  destruct Hr as [Hr|Hr]; rewrite Hr; reflexivity.
Qed.


(** ** C10: [SvcsMiddleware._get_registry] *)

(** [_get_registry] by cases on what the label and the store hold. *)
Lemma _get_registry_cases (self : SvcsMiddleware.t) (s : State) :
  SvcsMiddleware._get_registry self s =
  match app_configs s !! "django" with
  | None => (Raise LookupError, s)
  | Some l =>
      match heap s !! l with
      | Some (OInstance cls _) =>
          if class_truth cls then
            if is_mixin cls then get_registry (PyRef l) s
            else (Raise (TypeError [PyRef l]), s)
          else (Raise (ValueError [PyRef l]), s)
      | _ => (Raise (TypeError [PyRef l]), s)
      end
  end.
Proof.
  unfold SvcsMiddleware._get_registry, bind, raise, apps_get_app_config,
    truth, isinstance_mixin.
  destruct (app_configs s !! "django") as [l|]; [|reflexivity].
  destruct (heap s !! l) as [[ | | cls d]|] eqn:Hl; cbn [negb];
    rewrite ?Hl; try reflexivity.
  destruct (class_truth cls); cbn [negb]; [|reflexivity].
  rewrite Hl. destruct (is_mixin cls); reflexivity.
Qed.

Lemma _get_registry_pure (self : SvcsMiddleware.t) (s : State) :
  (SvcsMiddleware._get_registry self s).2 = s.
Proof.
  rewrite _get_registry_cases.
  destruct (app_configs s !! "django") as [l|]; [|reflexivity].
  destruct (heap s !! l) as [[ | | cls d]|]; try reflexivity.
  destruct (class_truth cls); [|reflexivity].
  destruct (is_mixin cls); [|reflexivity].
  apply get_registry_pure.
Qed.



(** ** C8: [DjangoSvcsAppConfigMixin.ready] *)



(** ** C1 and C7: [SvcsMiddleware.__call__] *)

Lemma key_is_not_registry : _KEY_CONTAINER <> "registry".
Proof. discriminate. Qed.

(** C1. When the registry resolves, [__call__] allocates a container that
    the store did not have, built from the resolved registry and with an
    empty cache, writes it into the request's attributes under the container
    key, and its outcome (result or exception, and final state) is exactly
    the outcome of [get_response] on that request in the state so prepared. *)
Theorem middleware_call_stashes_and_delegates (mw : SvcsMiddleware.t)
    (s : State) (lreq : loc) cls d (registry : pyobj) :
  heap s !! lreq = Some (OInstance cls d) ->
  SvcsMiddleware._get_registry mw s = (Ok registry, s) ->
  let c := fresh (dom (heap s)) in
  let s' :=
    set_heap s (<[lreq := OInstance cls (<[_KEY_CONTAINER := PyRef c]> d)]>
                  (<[c := OContainer registry ∅]> (heap s))) in
  heap s !! c = None /\
  heap s' !! c = Some (OContainer registry ∅) /\
  heap s' !! lreq = Some (OInstance cls (<[_KEY_CONTAINER := PyRef c]> d)) /\
  SvcsMiddleware.__call__ mw (PyRef lreq) s =
    SvcsMiddleware.get_response mw (PyRef lreq) s'.
Proof.
  intros Hl Hreg c s'.
  assert (Hne : lreq <> c) by apply (allocated_not_fresh _ _ _ Hl).
  split; [apply fresh_not_allocated|].
  split.
  { subst s'. cbn [heap set_heap].
    rewrite lookup_insert_ne by exact Hne. apply lookup_insert_eq. }
  split.
  { subst s'. cbn [heap set_heap]. apply lookup_insert_eq. }
  unfold SvcsMiddleware.__call__, bind. rewrite Hreg.
  unfold Container.new, alloc, setattr. cbn [heap set_heap]. fold c.
  rewrite lookup_insert_ne by (symmetry; exact Hne).
  rewrite Hl. reflexivity.
Qed.

(** When the registry does not resolve, the exception goes to the caller and
    the handler is not run. *)
Lemma middleware_call_without_registry (mw : SvcsMiddleware.t) (s : State)
    (request : pyobj) (e : exn) :
  SvcsMiddleware._get_registry mw s = (Raise e, s) ->
  SvcsMiddleware.__call__ mw request s = (Raise e, s).
Proof.
  intros Hreg. unfold SvcsMiddleware.__call__, bind. rewrite Hreg. reflexivity.
Qed.

(** The resolution of the registry does not depend on the handler. *)
Lemma _get_registry_any_self (mw mw' : SvcsMiddleware.t) (s : State) :
  SvcsMiddleware._get_registry mw s = SvcsMiddleware._get_registry mw' s.
Proof. reflexivity. Qed.

(** Stashing a container on a request does not change which registry the
    middleware resolves. *)
Lemma _get_registry_after_stash (mw : SvcsMiddleware.t) (s : State)
    (lreq : loc) cls d (registry v : pyobj) (o : object) :
  heap s !! lreq = Some (OInstance cls d) ->
  SvcsMiddleware._get_registry mw s = (Ok registry, s) ->
  let c := fresh (dom (heap s)) in
  let s' :=
    set_heap s (<[lreq := OInstance cls (<[_KEY_CONTAINER := v]> d)]>
                  (<[c := o]> (heap s))) in
  SvcsMiddleware._get_registry mw s' = (Ok registry, s').
Proof.
  intros Hl Hreg c s'. revert Hreg.
  rewrite !_get_registry_cases.
  change (app_configs s') with (app_configs s).
  destruct (app_configs s !! "django") as [l|]; [|discriminate].
  assert (Hview : forall o', heap s !! l = Some o' ->
            exists o'', heap s' !! l = Some o'' /\
              match o', o'' with
              | OInstance c1 d1, OInstance c2 d2 =>
                  c1 = c2 /\ d1 !! "registry" = d2 !! "registry"
              | _, _ => o' = o''
              end).
  { intros o' Ho'. subst s'. cbn [heap set_heap].
    destruct (decide (lreq = l)) as [->|Hne].
    - rewrite lookup_insert_eq. eexists; split; [reflexivity|].
      rewrite Hl in Ho'. injection Ho' as <-. split; [reflexivity|].
      symmetry. apply lookup_insert_ne. exact key_is_not_registry.
    - rewrite lookup_insert_ne by exact Hne.
      rewrite lookup_insert_ne
        by (symmetry; apply (allocated_not_fresh _ _ _ Ho')).
      exists o'. split; [exact Ho'|]. destruct o'; auto. }
  destruct (heap s !! l) as [o'|] eqn:Ho'; [|discriminate].
  destruct (Hview o' eq_refl) as (o'' & Ho'' & Hrel). rewrite Ho''.
  destruct o' as [ | |c1 d1]; try (subst o''; discriminate).
  destruct o'' as [ | |c2 d2]; try discriminate.
  destruct Hrel as [<- Hd].
  destruct (class_truth c1); [|discriminate].
  destruct (is_mixin c1) eqn:Hc; [|discriminate].
  unfold get_registry, bind, raise.
  rewrite (getattr_registry_mixin s l c1 d1 Ho' Hc).
  rewrite (getattr_registry_mixin s' l c1 d2 Ho'' Hc).
  rewrite <- Hd.
  destruct (negb (truthy (default PyNone (d1 !! "registry")))); [discriminate|].
  rewrite (getattr_registry_mixin s l c1 d1 Ho' Hc).
  rewrite (getattr_registry_mixin s' l c1 d2 Ho'' Hc).
  rewrite <- Hd. intros [= <-]. reflexivity.
Qed.

(** C7. In the state in which the next handler runs, [svcs_from(request)]
    returns the container the middleware has just allocated, whatever was
    stashed on the request before.  The container is per request: when the
    same request object passes the middleware again, a different container
    is allocated and takes the place of the first one in the stash. *)
Theorem stash_then_fetch (mw : SvcsMiddleware.t) (s : State) (lreq : loc)
    cls d (registry : pyobj) :
  heap s !! lreq = Some (OInstance cls d) ->
  SvcsMiddleware._get_registry mw s = (Ok registry, s) ->
  let c := fresh (dom (heap s)) in
  let s' :=
    set_heap s (<[lreq := OInstance cls (<[_KEY_CONTAINER := PyRef c]> d)]>
                  (<[c := OContainer registry ∅]> (heap s))) in
  let c2 := fresh (dom (heap s')) in
  SvcsMiddleware.__call__ mw (PyRef lreq) s =
    SvcsMiddleware.get_response mw (PyRef lreq) s' /\
  svcs_from (PyRef lreq) s' = (Ok (PyRef c), s') /\
  heap s !! c = None /\
  heap s' !! c = Some (OContainer registry ∅) /\
  c2 <> c /\
  exists s'' : State,
    SvcsMiddleware.__call__ (SvcsMiddleware.__init__ svcs_from)
      (PyRef lreq) s' = (Ok (PyRef c2), s'') /\
    heap s'' !! c2 = Some (OContainer registry ∅).
Proof.
  intros Hl Hreg c s' c2.
  assert (Hne : lreq <> c) by apply (allocated_not_fresh _ _ _ Hl).
  assert (Hl' : heap s' !! lreq =
                Some (OInstance cls (<[_KEY_CONTAINER := PyRef c]> d))).
  { subst s'. cbn [heap set_heap]. apply lookup_insert_eq. }
  assert (Hc' : heap s' !! c = Some (OContainer registry ∅)).
  { subst s'. cbn [heap set_heap].
    rewrite lookup_insert_ne by exact Hne. apply lookup_insert_eq. }
  split.
  { unfold SvcsMiddleware.__call__, bind. rewrite Hreg.
    unfold Container.new, alloc, setattr. cbn [heap set_heap]. fold c.
    rewrite lookup_insert_ne by (symmetry; exact Hne).
    rewrite Hl. reflexivity. }
  split.
  { apply (svcs_from_reads_stash_aux s' lreq _ _ _ Hl'). apply lookup_insert_eq. }
  split; [apply fresh_not_allocated|].
  split; [exact Hc'|].
  split; [symmetry; apply (allocated_not_fresh _ _ _ Hc')|].
  assert (Hreg' : SvcsMiddleware._get_registry
                    (SvcsMiddleware.__init__ svcs_from) s' = (Ok registry, s')).
  { apply (_get_registry_after_stash mw s lreq cls d registry _ _ Hl Hreg). }
  eexists. split.
  - unfold SvcsMiddleware.__call__, bind. rewrite Hreg'.
    unfold Container.new, alloc, setattr. fold c2.
    cbn [heap set_heap SvcsMiddleware.get_response SvcsMiddleware.__init__].
    rewrite lookup_insert_ne
      by (symmetry; apply (allocated_not_fresh _ _ _ Hl')).
    rewrite Hl'.
    apply (svcs_from_reads_stash_aux _ lreq cls
             (<[_KEY_CONTAINER := PyRef c2]>
                (<[_KEY_CONTAINER := PyRef c]> d))).
    + cbn [heap set_heap]. apply lookup_insert_eq.
    + apply lookup_insert_eq.
  - cbn [heap set_heap].
    rewrite lookup_insert_ne by (apply (allocated_not_fresh _ _ _ Hl')).
    apply lookup_insert_eq.
Qed.

(** ** C4: [register_factory] and [register_value] *)

(** C4. On a config whose [registry] attribute is a registry,
    [register_factory] is the call of [Registry.register_factory] on that
    registry with the same service type and factory and with the keyword
    arguments as given, an omitted one taking its default ([enter=True],
    [ping=None], [on_registry_close=None]); [register_value] is likewise the
    call of [Registry.register_value], with default [enter=False].  The
    resulting store differs only in the binding recorded in that registry. *)
Theorem register_forwards_verbatim (s : State) (config : pyobj) (r : loc)
    (services : gmap string RegisteredService) (svc_type : string)
    (factory value : pyobj) (enter : option bool)
    (ping on_registry_close : option pyobj) :
  getattr config "registry" s = (Ok (PyRef r), s) ->
  heap s !! r = Some (ORegistry services) ->
  let enter_f := default true enter in
  let enter_v := default false enter in
  let ping' := default PyNone ping in
  let on_close' := default PyNone on_registry_close in
  register_factory config svc_type factory enter ping on_registry_close s =
    Registry.register_factory (PyRef r) svc_type factory enter_f ping'
      on_close' s /\
  register_factory config svc_type factory enter ping on_registry_close s =
    (Ok PyNone,
     set_heap s
       (<[r := ORegistry
                 (<[svc_type := mkRegisteredService (Factory factory) enter_f
                                  ping' on_close']> services)]> (heap s))) /\
  register_value config svc_type value enter ping on_registry_close s =
    Registry.register_value (PyRef r) svc_type value enter_v ping'
      on_close' s /\
  register_value config svc_type value enter ping on_registry_close s =
    (Ok PyNone,
     set_heap s
       (<[r := ORegistry
                 (<[svc_type := mkRegisteredService (Value value) enter_v
                                  ping' on_close']> services)]> (heap s))).
Proof.
  intros Hcfg Hr enter_f enter_v ping' on_close'.
  unfold register_factory, register_value, bind, ret.
  rewrite Hcfg.
  unfold Registry.register_factory, Registry.register_value,
    Registry.bind_service.
  rewrite Hr. repeat split; reflexivity.
Qed.

(** ** C6: [get] *)

(** C6. On a request whose stash is a container, [get] applied to any list
    of service types has exactly the outcome of that container's [get] method
    on the same list, whatever the method does. *)
Theorem get_forwards_to_container
    (Container_get : loc -> list string -> M pyobj)
    (s : State) (lreq : loc) cls d (c : loc) (registry : pyobj)
    (instantiated : gmap string pyobj) (svc_types : list string) :
  heap s !! lreq = Some (OInstance cls d) ->
  d !! _KEY_CONTAINER = Some (PyRef c) ->
  heap s !! c = Some (OContainer registry instantiated) ->
  get Container_get (PyRef lreq) svc_types s = Container_get c svc_types s.
Proof.
  intros Hl Hd Hc. unfold get, bind.
  rewrite (svcs_from_reads_stash_aux s lreq cls d _ Hl Hd).
  unfold Container.get. rewrite Hc. reflexivity.
Qed.

(** ** C3 and C9: [overwrite_factory] *)

(** The whole effect of [overwrite_factory] on a request that carries a
    container built from a registry. *)
Lemma overwrite_factory_run (s : State) (lreq : loc) cls d (c r : loc)
    (instantiated : gmap string pyobj)
    (services : gmap string RegisteredService) (svc_type : string)
    (factory : pyobj) (enter : option bool)
    (ping on_registry_close : option pyobj) :
  heap s !! lreq = Some (OInstance cls d) ->
  d !! _KEY_CONTAINER = Some (PyRef c) ->
  heap s !! c = Some (OContainer (PyRef r) instantiated) ->
  heap s !! r = Some (ORegistry services) ->
  overwrite_factory (PyRef lreq) svc_type factory enter ping
    on_registry_close s =
  (Ok PyNone,
   set_heap s
     (<[c := OContainer (PyRef r) ∅]>
        (<[r := ORegistry
                  (<[svc_type :=
                       mkRegisteredService (Factory factory)
                         (default true enter) (default PyNone ping)
                         (default PyNone on_registry_close)]> services)]>
           (heap s)))).
Proof.
  intros Hl Hd Hc Hr. unfold overwrite_factory, bind, ret.
  rewrite (svcs_from_reads_stash_aux s lreq cls d _ Hl Hd).
  unfold getattr. rewrite Hc. cbn [String.eqb Ascii.eqb Bool.eqb].
  unfold Registry.register_factory, Registry.bind_service. rewrite Hr.
  unfold Container.close. cbn [heap set_heap].
  assert (Hne : r <> c) by (intros ->; rewrite Hc in Hr; discriminate).
  rewrite lookup_insert_ne by exact Hne. rewrite Hc. reflexivity.
Qed.

(** C3. On a request that carries a container built from a registry,
    [overwrite_factory] passes its arguments unchanged (an omitted keyword
    argument taking its default) to [Registry.register_factory] on that
    container's registry and then closes the container.  The registry ends
    as that one call left it, the request object is as it was, and so is
    every object other than the registry and the container. *)
Theorem overwrite_factory_forwards_verbatim (s : State) (lreq : loc) cls d
    (c r : loc) (instantiated : gmap string pyobj)
    (services : gmap string RegisteredService) (svc_type : string)
    (factory : pyobj) (enter : option bool)
    (ping on_registry_close : option pyobj) :
  heap s !! lreq = Some (OInstance cls d) ->
  d !! _KEY_CONTAINER = Some (PyRef c) ->
  heap s !! c = Some (OContainer (PyRef r) instantiated) ->
  heap s !! r = Some (ORegistry services) ->
  exists s1 s2 : State,
    Registry.register_factory (PyRef r) svc_type factory
      (default true enter) (default PyNone ping)
      (default PyNone on_registry_close) s = (Ok PyNone, s1) /\
    Container.close (PyRef c) s1 = (Ok PyNone, s2) /\
    overwrite_factory (PyRef lreq) svc_type factory enter ping
      on_registry_close s = (Ok PyNone, s2) /\
    heap s2 !! r = heap s1 !! r /\
    heap s2 !! lreq = heap s !! lreq /\
    (forall l : loc, l <> r -> l <> c -> heap s2 !! l = heap s !! l) /\
    app_configs s2 = app_configs s.
Proof.
  intros Hl Hd Hc Hr.
  assert (Hrc : r <> c) by (intros ->; rewrite Hc in Hr; discriminate).
  assert (Hlr : lreq <> r) by (intros ->; rewrite Hl in Hr; discriminate).
  assert (Hlc : lreq <> c) by (intros ->; rewrite Hl in Hc; discriminate).
  eexists. eexists.
  split.
  { unfold Registry.register_factory, Registry.bind_service.
    rewrite Hr. reflexivity. }
  split.
  { unfold Container.close. cbn [heap set_heap].
    rewrite lookup_insert_ne by exact Hrc. rewrite Hc. reflexivity. }
  split.
  { apply (overwrite_factory_run s lreq cls d c r instantiated services);
      assumption. }
  cbn [heap set_heap app_configs].
  split; [apply lookup_insert_ne; congruence|].
  split; [rewrite !lookup_insert_ne by congruence; reflexivity|].
  split; [|reflexivity].
  intros l Hl1 Hl2. rewrite !lookup_insert_ne by congruence. reflexivity.
Qed.

(** C9, as stated, fails: in the running scenario the container of the
    request was built by the middleware from the app config's registry, so
    the container's registry and the app config's registry are one object
    (3), and after [overwrite_factory] the app config's registry holds the
    overwriting factory, which it did not hold before. *)
Lemma overwrite_factory_reaches_app_registry :
  get_registry (PyRef 1) s_view = (Ok (PyRef 3), s_view) /\
  (container <- svcs_from (PyRef 2) ;; getattr container "registry") s_view =
    (Ok (PyRef 3), s_view) /\
  holds_factory s_view (PyRef 3) "Service" (PyFunc "fake_service") = false /\
  get_registry (PyRef 1) s_overwritten = (Ok (PyRef 3), s_overwritten) /\
  holds_factory s_overwritten (PyRef 3) "Service" (PyFunc "fake_service")
    <> false.
Proof. vm_compute. repeat split; discriminate. Qed.

(** C9, amended.  After [overwrite_factory] the container stashed on the
    request is closed (its cache is empty) and the factory is bound in the
    registry that container was built from.  Every other object is
    unchanged; but an app config whose [registry] is that same object, as
    for every container the middleware builds, sees the new factory through
    [get_registry]. *)
Theorem overwrite_factory_closes_and_registers (s : State) (lreq : loc) cls d
    (c r : loc) (instantiated : gmap string pyobj)
    (services : gmap string RegisteredService) (svc_type : string)
    (factory : pyobj) (enter : option bool)
    (ping on_registry_close : option pyobj) :
  heap s !! lreq = Some (OInstance cls d) ->
  d !! _KEY_CONTAINER = Some (PyRef c) ->
  heap s !! c = Some (OContainer (PyRef r) instantiated) ->
  heap s !! r = Some (ORegistry services) ->
  exists s' : State,
    overwrite_factory (PyRef lreq) svc_type factory enter ping
      on_registry_close s = (Ok PyNone, s') /\
    heap s' !! c = Some (OContainer (PyRef r) ∅) /\
    holds_factory s' (PyRef r) svc_type factory = true /\
    (forall l : loc, l <> r -> l <> c -> heap s' !! l = heap s !! l) /\
    (forall (app : loc) cls_a d_a,
       heap s !! app = Some (OInstance cls_a d_a) ->
       is_mixin cls_a = true ->
       d_a !! "registry" = Some (PyRef r) ->
       get_registry (PyRef app) s' = (Ok (PyRef r), s') /\
       holds_factory s' (PyRef r) svc_type factory = true).
Proof.
  intros Hl Hd Hc Hr.
  assert (Hrc : r <> c) by (intros ->; rewrite Hc in Hr; discriminate).
  eexists. split.
  { apply (overwrite_factory_run s lreq cls d c r instantiated services);
      assumption. }
  assert (Hholds : forall h : gmap loc object,
            holds_factory
              (set_heap s
                 (<[c := OContainer (PyRef r) ∅]>
                    (<[r := ORegistry
                              (<[svc_type :=
                                   mkRegisteredService (Factory factory)
                                     (default true enter)
                                     (default PyNone ping)
                                     (default PyNone on_registry_close)]>
                                 services)]> h)))
              (PyRef r) svc_type factory = true).
  { intros h. unfold holds_factory. cbn [heap set_heap].
    rewrite lookup_insert_ne by congruence.
    rewrite lookup_insert_eq, lookup_insert_eq. cbn.
    apply bool_decide_eq_true. reflexivity. }
  cbn [heap set_heap].
  split; [apply lookup_insert_eq|].
  split; [apply Hholds|].
  split.
  { intros l Hl1 Hl2. rewrite !lookup_insert_ne by congruence. reflexivity. }
  intros app cls_a d_a Ha Hmix Hreg.
  split; [|apply Hholds].
  assert (Har : app <> r) by (intros ->; rewrite Ha in Hr; discriminate).
  assert (Hac : app <> c) by (intros ->; rewrite Ha in Hc; discriminate).
  apply (get_registry_set _ app cls_a d_a r); [|exact Hmix|exact Hreg].
  cbn [heap set_heap]. rewrite !lookup_insert_ne by congruence. exact Ha.
Qed.

(** * The theorems at work on the running scenario *)

(** The objects of the scenario, once the view runs: the app config (1)
    holds registry 3, the request (2) holds container 4, built from 3. *)
Lemma s_view_app :
  heap s_view !! 1%positive =
  Some (OInstance C_DjangoSvcsAppConfig {[ "registry" := PyRef 3 ]}).
Proof. vm_compute. reflexivity. Defined.

Lemma s_view_request :
  heap s_view !! 2%positive =
  Some (OInstance C_HttpRequest {[ _KEY_CONTAINER := PyRef 4 ]}).
Proof. vm_compute. reflexivity. Defined.

Lemma s_view_registry : heap s_view !! 3%positive = Some (ORegistry ∅).
Proof. vm_compute. reflexivity. Defined.

Lemma s_view_container :
  heap s_view !! 4%positive = Some (OContainer (PyRef 3) ∅).
Proof. vm_compute. reflexivity. Defined.

Lemma s_ready_app :
  heap s_ready !! 1%positive =
  Some (OInstance C_DjangoSvcsAppConfig {[ "registry" := PyRef 3 ]}).
Proof. vm_compute. reflexivity. Defined.

Lemma s_ready_request :
  heap s_ready !! 2%positive = Some (OInstance C_HttpRequest ∅).
Proof. vm_compute. reflexivity. Defined.

Lemma s_ready_resolves (mw : SvcsMiddleware.t) :
  SvcsMiddleware._get_registry mw s_ready = (Ok (PyRef 3), s_ready).
Proof. vm_compute. reflexivity. Defined.

(** Before [ready] has run, the middleware cannot resolve a registry. *)
Example s_boot_does_not_resolve (mw : SvcsMiddleware.t) :
  SvcsMiddleware.__call__ mw (PyRef 2) s_boot = (Raise (ValueError []), s_boot).
Proof. vm_compute. reflexivity. Qed.

Lemma svcs_from_reads_stash_witness :
  svcs_from (PyRef 2) s_view = (Ok (PyRef 4), s_view).
Proof.
  apply (svcs_from_reads_stash s_view 2 C_HttpRequest
           {[ _KEY_CONTAINER := PyRef 4 ]} (PyRef 4)).
  - exact s_view_request.
  - reflexivity.
Defined.




Lemma middleware_call_stashes_and_delegates_witness :
  SvcsMiddleware.__call__ (SvcsMiddleware.__init__ svcs_from) (PyRef 2)
    s_ready = svcs_from (PyRef 2) s_view.
Proof.
  pose proof (middleware_call_stashes_and_delegates
                (SvcsMiddleware.__init__ svcs_from) s_ready 2 C_HttpRequest ∅
                (PyRef 3) s_ready_request (s_ready_resolves _))
    as (_ & _ & _ & Hcall).
  exact Hcall.
Defined.

Lemma stash_then_fetch_witness :
  svcs_from (PyRef 2) s_view = (Ok (PyRef 4), s_view) /\
  exists s'' : State,
    SvcsMiddleware.__call__ (SvcsMiddleware.__init__ svcs_from) (PyRef 2)
      s_view = (Ok (PyRef 5), s'').
Proof.
  pose proof (stash_then_fetch (SvcsMiddleware.__init__ svcs_from) s_ready 2
                C_HttpRequest ∅ (PyRef 3) s_ready_request
                (s_ready_resolves _))
    as (_ & Hfetch & _ & _ & _ & s'' & Hagain & _).
  split; [exact Hfetch|]. exists s''. exact Hagain.
Defined.

Lemma register_forwards_verbatim_witness :
  register_factory (PyRef 1) "Service" (PyFunc "make_service") None None None
    s_ready =
  Registry.register_factory (PyRef 3) "Service" (PyFunc "make_service") true
    PyNone PyNone s_ready /\
  register_value (PyRef 1) "Service" (PyInt 42) None None None s_ready =
  Registry.register_value (PyRef 3) "Service" (PyInt 42) false PyNone PyNone
    s_ready.
Proof.
  pose proof (register_forwards_verbatim s_ready (PyRef 1) 3 ∅ "Service"
                (PyFunc "make_service") (PyInt 42) None None None
                eq_refl eq_refl)
    as (Hf & _ & Hv & _).
  split; [exact Hf|exact Hv].
Defined.

Lemma get_forwards_to_container_witness :
  get (fun _ _ => ret (PyInt 42)) (PyRef 2) ["Service"] s_view =
  (Ok (PyInt 42), s_view).
Proof.
  apply (get_forwards_to_container (fun _ _ => ret (PyInt 42)) s_view 2
           C_HttpRequest {[ _KEY_CONTAINER := PyRef 4 ]} 4 (PyRef 3) ∅
           ["Service"] s_view_request eq_refl s_view_container).
Defined.

Lemma overwrite_factory_forwards_verbatim_witness :
  exists s1 s2 : State,
    Registry.register_factory (PyRef 3) "Service" (PyFunc "fake_service")
      true PyNone PyNone s_view = (Ok PyNone, s1) /\
    Container.close (PyRef 4) s1 = (Ok PyNone, s2) /\
    overwrite_factory (PyRef 2) "Service" (PyFunc "fake_service")
      None None None s_view = (Ok PyNone, s2).
Proof.
  destruct (overwrite_factory_forwards_verbatim s_view 2 C_HttpRequest
              {[ _KEY_CONTAINER := PyRef 4 ]} 4 3 ∅ ∅ "Service"
              (PyFunc "fake_service") None None None
              s_view_request eq_refl s_view_container s_view_registry)
    as (s1 & s2 & Hreg & Hclose & Hrun & _).
  exists s1, s2. split; [exact Hreg|]. split; [exact Hclose|exact Hrun].
Defined.

Lemma overwrite_factory_closes_and_registers_witness :
  exists s' : State,
    overwrite_factory (PyRef 2) "Service" (PyFunc "fake_service")
      None None None s_view = (Ok PyNone, s') /\
    heap s' !! 4%positive = Some (OContainer (PyRef 3) ∅) /\
    get_registry (PyRef 1) s' = (Ok (PyRef 3), s') /\
    holds_factory s' (PyRef 3) "Service" (PyFunc "fake_service") = true.
Proof.
  destruct (overwrite_factory_closes_and_registers s_view 2 C_HttpRequest
              {[ _KEY_CONTAINER := PyRef 4 ]} 4 3 ∅ ∅ "Service"
              (PyFunc "fake_service") None None None
              s_view_request eq_refl s_view_container s_view_registry)
    as (s' & Hrun & Hclosed & _ & _ & Happ).
  exists s'. split; [exact Hrun|]. split; [exact Hclosed|].
  exact (Happ 1%positive C_DjangoSvcsAppConfig {[ "registry" := PyRef 3 ]}
           s_view_app eq_refl eq_refl).
Defined.

(** * Further properties of the adapter *)

(** ** Steps shared by the proofs below *)

Lemma get_registry_truthy (s : State) (l : loc) cls d (v : pyobj) :
  heap s !! l = Some (OInstance cls d) ->
  is_mixin cls = true ->
  d !! "registry" = Some v ->
  truthy v = true ->
  get_registry (PyRef l) s = (Ok v, s).
Proof.
  intros Hl Hc Hv Ht. unfold get_registry, bind, raise.
  rewrite (getattr_registry_mixin _ _ _ _ Hl Hc), Hv.
  cbn [default from_option id]. rewrite Ht. cbn [negb].
  rewrite (getattr_registry_mixin _ _ _ _ Hl Hc), Hv. reflexivity.
Qed.

Lemma _get_registry_via_label (self : SvcsMiddleware.t) (s : State)
    (l : loc) cls d :
  app_configs s !! "django" = Some l ->
  heap s !! l = Some (OInstance cls d) ->
  class_truth cls = true ->
  is_mixin cls = true ->
  SvcsMiddleware._get_registry self s = get_registry (PyRef l) s.
Proof.
  intros Ha Hl Ht Hc.
  rewrite _get_registry_cases, Ha, Hl, Ht, Hc. reflexivity.
Qed.

(** [ready] on a config without a usable registry: the explicit outcome. *)
Lemma ready_installs (s : State) (l : loc) cls d :
  heap s !! l = Some (OInstance cls d) ->
  is_mixin cls = true ->
  truthy (default PyNone (d !! "registry")) = false ->
  DjangoSvcsAppConfigMixin.ready (PyRef l) s =
  (Ok PyNone,
   set_heap s
     (<[l := OInstance cls
               (<["registry" := PyRef (fresh (dom (heap s)))]> d)]>
        (<[fresh (dom (heap s)) := ORegistry ∅]> (heap s)))).
Proof.
  intros Hl Hc Ht. unfold DjangoSvcsAppConfigMixin.ready, bind, ret.
  rewrite (getattr_registry_mixin _ _ _ _ Hl Hc), Ht. cbn [negb].
  unfold Registry.new, alloc, setattr. cbn [heap set_heap].
  rewrite lookup_insert_ne by (symmetry; apply (allocated_not_fresh _ _ _ Hl)).
  rewrite Hl. reflexivity.
Qed.

Lemma ready_noop (s : State) (l : loc) cls d :
  heap s !! l = Some (OInstance cls d) ->
  is_mixin cls = true ->
  truthy (default PyNone (d !! "registry")) = true ->
  DjangoSvcsAppConfigMixin.ready (PyRef l) s = (Ok PyNone, s).
Proof.
  intros Hl Hc Ht. unfold DjangoSvcsAppConfigMixin.ready, bind, ret.
  rewrite (getattr_registry_mixin _ _ _ _ Hl Hc), Ht. reflexivity.
Qed.

(** The run of the middleware up to the call of the handler. *)
Lemma middleware_call_run (mw : SvcsMiddleware.t) (s : State) (lreq : loc)
    cls d (registry : pyobj) :
  heap s !! lreq = Some (OInstance cls d) ->
  SvcsMiddleware._get_registry mw s = (Ok registry, s) ->
  SvcsMiddleware.__call__ mw (PyRef lreq) s =
  SvcsMiddleware.get_response mw (PyRef lreq)
    (set_heap s
       (<[lreq := OInstance cls
                    (<[_KEY_CONTAINER := PyRef (fresh (dom (heap s)))]> d)]>
          (<[fresh (dom (heap s)) := OContainer registry ∅]> (heap s)))).
Proof.
  intros Hl Hreg. unfold SvcsMiddleware.__call__, bind. rewrite Hreg.
  unfold Container.new, alloc, setattr. cbn [heap set_heap].
  rewrite lookup_insert_ne by (symmetry; apply (allocated_not_fresh _ _ _ Hl)).
  rewrite Hl. reflexivity.
Qed.

(** ** What [_get_registry] can and cannot produce *)


(** X2. When the registry does not resolve, [__call__] raises the very
    exception of [_get_registry] and leaves the state exactly as it was: no
    container is allocated, the request is not touched, and the outcome does
    not depend on the handler. *)
Theorem middleware_failure_leaves_no_trace (mw : SvcsMiddleware.t)
    (request : pyobj) (s : State) (e : exn) :
  (SvcsMiddleware._get_registry mw s).1 = Raise e ->
  SvcsMiddleware.__call__ mw request s = (Raise e, s).
Proof.
  intros He. unfold SvcsMiddleware.__call__, bind.
  pose proof (_get_registry_pure mw s) as Hp.
  destruct (SvcsMiddleware._get_registry mw s) as [res s'].
  cbn in He, Hp. subst res s'. reflexivity.
Qed.

(** ** [ready] and the middleware *)

(** After [ready], a config of the mixin holds a usable registry; nothing
    else in the store has changed. *)
Lemma ready_establishes (s : State) (l : loc) cls d :
  heap s !! l = Some (OInstance cls d) ->
  is_mixin cls = true ->
  exists (s1 : State) (d1 : gmap string pyobj) (v : pyobj),
    DjangoSvcsAppConfigMixin.ready (PyRef l) s = (Ok PyNone, s1) /\
    heap s1 !! l = Some (OInstance cls d1) /\
    d1 !! "registry" = Some v /\
    truthy v = true /\
    app_configs s1 = app_configs s /\
    (forall (l' : loc) (o : object),
       l' <> l -> heap s !! l' = Some o -> heap s1 !! l' = Some o).
Proof.
  intros Hl Hc.
  destruct (truthy (default PyNone (d !! "registry"))) eqn:Ht.
  - destruct (d !! "registry") as [v|] eqn:Hd; [|discriminate Ht].
    exists s, d, v. rewrite (ready_noop s l cls d Hl Hc); [|rewrite Hd; exact Ht].
    repeat split; auto.
  - eexists. eexists. exists (PyRef (fresh (dom (heap s)))).
    split; [exact (ready_installs s l cls d Hl Hc Ht)|].
    cbn [heap set_heap app_configs].
    split; [apply lookup_insert_eq|].
    split; [apply lookup_insert_eq|].
    split; [reflexivity|]. split; [reflexivity|].
    intros l' o Hne Ho.
    rewrite lookup_insert_ne by congruence.
    rewrite lookup_insert_ne
      by (symmetry; apply (allocated_not_fresh _ _ _ Ho)).
    exact Ho.
Qed.

(** X3. Once [ready] has run on the app config installed under the label
    [django] (an instance of the mixin that is true in a condition, whatever
    its registry was before), the middleware resolves a registry, and on any
    request object it reaches the handler with a newly allocated container,
    built from that registry, in the request's stash. *)
Theorem ready_enables_middleware (mw : SvcsMiddleware.t) (s : State)
    (l lreq : loc) cls d cls_r d_r :
  app_configs s !! "django" = Some l ->
  heap s !! l = Some (OInstance cls d) ->
  is_mixin cls = true ->
  class_truth cls = true ->
  heap s !! lreq = Some (OInstance cls_r d_r) ->
  exists (s1 s2 : State) (v : pyobj) (c : loc),
    DjangoSvcsAppConfigMixin.ready (PyRef l) s = (Ok PyNone, s1) /\
    SvcsMiddleware._get_registry mw s1 = (Ok v, s1) /\
    truthy v = true /\
    heap s1 !! c = None /\
    SvcsMiddleware.__call__ mw (PyRef lreq) s1 =
      SvcsMiddleware.get_response mw (PyRef lreq) s2 /\
    svcs_from (PyRef lreq) s2 = (Ok (PyRef c), s2) /\
    heap s2 !! c = Some (OContainer v ∅).
Proof.
  intros Ha Hl Hc Htrue Hreq.
  destruct (ready_establishes s l cls d Hl Hc)
    as (s1 & d1 & v & Hready & Hl1 & Hd1 & Ht & Happs & Hframe).
  assert (Hres : SvcsMiddleware._get_registry mw s1 = (Ok v, s1)).
  { rewrite (_get_registry_via_label mw s1 l cls d1);
      [|rewrite Happs; exact Ha|exact Hl1|exact Htrue|exact Hc].
    exact (get_registry_truthy s1 l cls d1 v Hl1 Hc Hd1 Ht). }
  assert (Hreq1 : exists cls' d', heap s1 !! lreq = Some (OInstance cls' d')).
  { destruct (decide (lreq = l)) as [->|Hne].
    - exists cls, d1. exact Hl1.
    - exists cls_r, d_r. exact (Hframe lreq _ Hne Hreq). }
  destruct Hreq1 as (cls' & d' & Hreq1).
  pose proof (middleware_call_run mw s1 lreq cls' d' v Hreq1 Hres) as Hrun.
  eexists s1, _, v, (fresh (dom (heap s1))).
  split; [exact Hready|]. split; [exact Hres|]. split; [exact Ht|].
  split; [apply fresh_not_allocated|].
  split; [exact Hrun|].
  split.
  - apply (svcs_from_reads_stash_aux _ lreq cls'
             (<[_KEY_CONTAINER := PyRef (fresh (dom (heap s1)))]> d')).
    + cbn [heap set_heap]. apply lookup_insert_eq.
    + apply lookup_insert_eq.
  - cbn [heap set_heap].
    rewrite lookup_insert_ne by (apply (allocated_not_fresh _ _ _ Hreq1)).
    apply lookup_insert_eq.
Qed.

(** X4. [ready] initialises the instance it is called on and no other: with
    two configs of the mixin, both without a registry, [ready] on the first
    leaves [get_registry] of the second raising [ValueError]; after [ready]
    on the second as well, each config has its own registry and the two are
    different objects. *)
Theorem ready_is_per_instance (s : State) (a b : loc) ca da cb db :
  a <> b ->
  heap s !! a = Some (OInstance ca da) ->
  heap s !! b = Some (OInstance cb db) ->
  is_mixin ca = true ->
  is_mixin cb = true ->
  da !! "registry" = None \/ da !! "registry" = Some PyNone ->
  db !! "registry" = None \/ db !! "registry" = Some PyNone ->
  exists (s1 s2 : State) (ra rb : loc),
    DjangoSvcsAppConfigMixin.ready (PyRef a) s = (Ok PyNone, s1) /\
    get_registry (PyRef b) s1 = (Raise (ValueError []), s1) /\
    DjangoSvcsAppConfigMixin.ready (PyRef b) s1 = (Ok PyNone, s2) /\
    get_registry (PyRef a) s2 = (Ok (PyRef ra), s2) /\
    get_registry (PyRef b) s2 = (Ok (PyRef rb), s2) /\
    ra <> rb.
Proof.
  intros Hab Ha Hb Hca Hcb Hda Hdb.
  assert (Hta : truthy (default PyNone (da !! "registry")) = false)
    by (destruct Hda as [H|H]; rewrite H; reflexivity).
  assert (Htb : truthy (default PyNone (db !! "registry")) = false)
    by (destruct Hdb as [H|H]; rewrite H; reflexivity).
  pose proof (ready_installs s a ca da Ha Hca Hta) as Hr1.
  set (ra := fresh (dom (heap s))) in *.
  set (s1 := set_heap s _) in Hr1.
  assert (Hra1 : heap s1 !! ra = Some (ORegistry ∅)).
  { subst s1. cbn [heap set_heap].
    rewrite lookup_insert_ne by (apply (allocated_not_fresh _ _ _ Ha)).
    apply lookup_insert_eq. }
  assert (Ha1 : heap s1 !! a =
                Some (OInstance ca (<["registry" := PyRef ra]> da))).
  { subst s1. cbn [heap set_heap]. apply lookup_insert_eq. }
  assert (Hb1 : heap s1 !! b = Some (OInstance cb db)).
  { subst s1. cbn [heap set_heap].
    rewrite lookup_insert_ne by exact Hab.
    rewrite lookup_insert_ne
      by (symmetry; apply (allocated_not_fresh _ _ _ Hb)).
    exact Hb. }
  pose proof (ready_installs s1 b cb db Hb1 Hcb Htb) as Hr2.
  set (rb := fresh (dom (heap s1))) in *.
  set (s2 := set_heap s1 _) in Hr2.
  exists s1, s2, ra, rb.
  split; [exact Hr1|].
  split; [exact (get_registry_unset s1 b cb db Hb1 Hcb Hdb)|].
  split; [exact Hr2|].
  split.
  { apply (get_registry_set s2 a ca (<["registry" := PyRef ra]> da) ra);
      [|exact Hca|apply lookup_insert_eq].
    subst s2. cbn [heap set_heap].
    rewrite lookup_insert_ne by congruence.
    rewrite lookup_insert_ne
      by (symmetry; apply (allocated_not_fresh _ _ _ Ha1)).
    exact Ha1. }
  split.
  { apply (get_registry_set s2 b cb (<["registry" := PyRef rb]> db) rb);
      [|exact Hcb|apply lookup_insert_eq].
    subst s2. cbn [heap set_heap]. apply lookup_insert_eq. }
  apply (allocated_not_fresh _ _ _ Hra1).
Qed.

(** X5. Registering through a config of the mixin before [ready] has given
    it a registry fails: [register_factory] and [register_value] raise
    [AttributeError] (the method is looked up on [None]) and the state is
    unchanged, so nothing is registered anywhere. *)
Theorem register_before_ready_fails (s : State) (l : loc) cls d
    (svc_type : string) (payload : pyobj) (enter : option bool)
    (ping on_registry_close : option pyobj) :
  heap s !! l = Some (OInstance cls d) ->
  is_mixin cls = true ->
  d !! "registry" = None \/ d !! "registry" = Some PyNone ->
  register_factory (PyRef l) svc_type payload enter ping on_registry_close s =
    (Raise AttributeError, s) /\
  register_value (PyRef l) svc_type payload enter ping on_registry_close s =
    (Raise AttributeError, s).
Proof.
  intros Hl Hc Hd.
  assert (Hnone : default PyNone (d !! "registry") = PyNone)
    by (destruct Hd as [H|H]; rewrite H; reflexivity).
  unfold register_factory, register_value, bind, ret.
  rewrite (getattr_registry_mixin _ _ _ _ Hl Hc), Hnone.
  split; reflexivity.
Qed.

(** X6. On a request that carries no stash (one that did not pass the
    middleware), [svcs_from], [get] and [overwrite_factory] all raise
    [AttributeError] and change nothing: [Container.get] is not called and
    no factory is registered. *)
Theorem without_stash_nothing_happens (s : State) (l : loc) cls d :
  heap s !! l = Some (OInstance cls d) ->
  d !! _KEY_CONTAINER = None ->
  svcs_from (PyRef l) s = (Raise AttributeError, s) /\
  (forall (Container_get : loc -> list string -> M pyobj)
          (svc_types : list string),
     get Container_get (PyRef l) svc_types s = (Raise AttributeError, s)) /\
  (forall (svc_type : string) (factory : pyobj) (enter : option bool)
          (ping on_registry_close : option pyobj),
     overwrite_factory (PyRef l) svc_type factory enter ping
       on_registry_close s = (Raise AttributeError, s)).
Proof.
  intros Hl Hd.
  pose proof (svcs_from_nothing_stashed s l cls d Hl Hd) as Hfrom.
  split; [exact Hfrom|]. split.
  - intros Container_get svc_types. unfold get, bind. rewrite Hfrom.
    reflexivity.
  - intros svc_type factory enter ping on_registry_close.
    unfold overwrite_factory, bind. rewrite Hfrom. reflexivity.
Qed.

(** ** The registry behind a request's container *)

(** X7. In the state the handler starts in, the registry reached through
    the request ([svcs_from(request).registry]) is the very value that
    [_get_registry] resolved, and [_get_registry] still resolves it: a view
    and the app config work on one and the same registry. *)
Theorem view_registry_is_app_registry (mw : SvcsMiddleware.t) (s : State)
    (lreq : loc) cls d (registry : pyobj) :
  heap s !! lreq = Some (OInstance cls d) ->
  SvcsMiddleware._get_registry mw s = (Ok registry, s) ->
  exists s' : State,
    SvcsMiddleware.__call__ mw (PyRef lreq) s =
      SvcsMiddleware.get_response mw (PyRef lreq) s' /\
    (container <- svcs_from (PyRef lreq) ;; getattr container "registry") s' =
      (Ok registry, s') /\
    SvcsMiddleware._get_registry mw s' = (Ok registry, s').
Proof.
  intros Hl Hreg. eexists.
  split; [exact (middleware_call_run mw s lreq cls d registry Hl Hreg)|].
  split.
  - unfold bind.
    rewrite (svcs_from_reads_stash_aux _ lreq cls
               (<[_KEY_CONTAINER := PyRef (fresh (dom (heap s)))]> d)
               (PyRef (fresh (dom (heap s)))));
      [|cbn [heap set_heap]; apply lookup_insert_eq|apply lookup_insert_eq].
    unfold getattr. cbn [heap set_heap].
    rewrite lookup_insert_ne by (apply (allocated_not_fresh _ _ _ Hl)).
    rewrite lookup_insert_eq. reflexivity.
  - exact (_get_registry_after_stash mw s lreq cls d registry _ _ Hl Hreg).
Qed.

(** X8. A factory registered through the app config (an instance of the
    mixin that is true in a condition) is overridden by a view that calls
    [overwrite_factory] for the same service type: after the request has
    passed the middleware, the registry that [get_registry]
    returns for the app config binds the type to the view's factory, with the
    view's keyword arguments, and binds every other type as before. *)
Theorem overwrite_in_view_overrides_registration (s : State)
    (app r lreq : loc) cls_a d_a cls d
    (services : gmap string RegisteredService) (svc_type : string)
    (f1 f2 : pyobj) (e1 e2 : option bool) (p1 o1 p2 o2 : option pyobj) :
  app_configs s !! "django" = Some app ->
  heap s !! app = Some (OInstance cls_a d_a) ->
  is_mixin cls_a = true ->
  class_truth cls_a = true ->
  d_a !! "registry" = Some (PyRef r) ->
  heap s !! r = Some (ORegistry services) ->
  heap s !! lreq = Some (OInstance cls d) ->
  lreq <> app ->
  exists s1 s2 : State,
    register_factory (PyRef app) svc_type f1 e1 p1 o1 s = (Ok PyNone, s1) /\
    binding_of s1 (PyRef r) svc_type =
      Some (mkRegisteredService (Factory f1) (default true e1)
              (default PyNone p1) (default PyNone o1)) /\
    SvcsMiddleware.__call__
      (SvcsMiddleware.__init__
         (fun request => overwrite_factory request svc_type f2 e2 p2 o2))
      (PyRef lreq) s1 = (Ok PyNone, s2) /\
    get_registry (PyRef app) s2 = (Ok (PyRef r), s2) /\
    binding_of s2 (PyRef r) svc_type =
      Some (mkRegisteredService (Factory f2) (default true e2)
              (default PyNone p2) (default PyNone o2)) /\
    (forall t : string, t <> svc_type ->
       binding_of s2 (PyRef r) t = services !! t).
Proof.
  intros Happs Ha Hmix Htrue Hda Hr Hreq Hne.
  assert (Har : app <> r) by (intros ->; rewrite Ha in Hr; discriminate).
  assert (Hlr : lreq <> r) by (intros ->; rewrite Hreq in Hr; discriminate).
  (* registration through the app config *)
  assert (Hget : getattr (PyRef app) "registry" s = (Ok (PyRef r), s)).
  { rewrite (getattr_registry_mixin s app cls_a d_a Ha Hmix), Hda.
    reflexivity. }
  set (rs1 := mkRegisteredService (Factory f1) (default true e1)
                (default PyNone p1) (default PyNone o1)).
  set (s1 := set_heap s (<[r := ORegistry (<[svc_type := rs1]> services)]>
                           (heap s))).
  assert (Hreg1 : register_factory (PyRef app) svc_type f1 e1 p1 o1 s =
                  (Ok PyNone, s1)).
  { unfold register_factory, bind, ret. rewrite Hget.
    unfold Registry.register_factory, Registry.bind_service. rewrite Hr.
    reflexivity. }
  assert (Ha1 : heap s1 !! app = Some (OInstance cls_a d_a)).
  { subst s1. cbn [heap set_heap]. rewrite lookup_insert_ne by congruence.
    exact Ha. }
  assert (Hreq1 : heap s1 !! lreq = Some (OInstance cls d)).
  { subst s1. cbn [heap set_heap]. rewrite lookup_insert_ne by congruence.
    exact Hreq. }
  assert (Hr1 : heap s1 !! r = Some (ORegistry (<[svc_type := rs1]> services))).
  { subst s1. cbn [heap set_heap]. apply lookup_insert_eq. }
  (* the middleware in front of the view *)
  set (mw := SvcsMiddleware.__init__
               (fun request => overwrite_factory request svc_type f2 e2 p2 o2)).
  assert (Hres : SvcsMiddleware._get_registry mw s1 = (Ok (PyRef r), s1)).
  { rewrite (_get_registry_via_label mw s1 app cls_a d_a Happs Ha1 Htrue
               Hmix).
    exact (get_registry_set s1 app cls_a d_a r Ha1 Hmix Hda). }
  pose proof (middleware_call_run mw s1 lreq cls d (PyRef r) Hreq1 Hres)
    as Hrun.
  set (c := fresh (dom (heap s1))) in *.
  set (sv := set_heap s1 _) in Hrun.
  assert (Hcr : r <> c) by (apply (allocated_not_fresh _ _ _ Hr1)).
  assert (Hca : app <> c) by (apply (allocated_not_fresh _ _ _ Ha1)).
  assert (Hcl : lreq <> c) by (apply (allocated_not_fresh _ _ _ Hreq1)).
  assert (Hreqv : heap sv !! lreq =
                  Some (OInstance cls (<[_KEY_CONTAINER := PyRef c]> d))).
  { subst sv. cbn [heap set_heap]. apply lookup_insert_eq. }
  assert (Hcv : heap sv !! c = Some (OContainer (PyRef r) ∅)).
  { subst sv. cbn [heap set_heap].
    rewrite lookup_insert_ne by congruence. apply lookup_insert_eq. }
  assert (Hrv : heap sv !! r = Some (ORegistry (<[svc_type := rs1]> services))).
  { subst sv. cbn [heap set_heap].
    rewrite !lookup_insert_ne by congruence. exact Hr1. }
  assert (Hav : heap sv !! app = Some (OInstance cls_a d_a)).
  { subst sv. cbn [heap set_heap].
    rewrite !lookup_insert_ne by congruence. exact Ha1. }
  pose proof (overwrite_factory_run sv lreq cls _ c r ∅ _ svc_type f2 e2 p2 o2
                Hreqv (lookup_insert_eq _ _ _) Hcv Hrv) as Hover.
  set (s2 := set_heap sv _) in Hover.
  exists s1, s2.
  split; [exact Hreg1|].
  split.
  { unfold binding_of. rewrite Hr1. apply lookup_insert_eq. }
  split.
  { rewrite Hrun. exact Hover. }
  assert (Hr2 : heap s2 !! r =
                Some (ORegistry
                        (<[svc_type :=
                             mkRegisteredService (Factory f2)
                               (default true e2) (default PyNone p2)
                               (default PyNone o2)]>
                           (<[svc_type := rs1]> services)))).
  { subst s2. cbn [heap set_heap].
    rewrite lookup_insert_ne by congruence. apply lookup_insert_eq. }
  split.
  { apply (get_registry_set s2 app cls_a d_a r); [|exact Hmix|exact Hda].
    subst s2. cbn [heap set_heap].
    rewrite !lookup_insert_ne by congruence. exact Hav. }
  split.
  { unfold binding_of. rewrite Hr2. apply lookup_insert_eq. }
  intros t Ht. unfold binding_of. rewrite Hr2.
  rewrite !lookup_insert_ne by congruence. reflexivity.
Qed.


(** X10. Apart from the stash, the middleware changes nothing before it
    hands over: every other attribute of the request reads as before, every
    object other than the request is as it was, and Django's table of app
    configs is untouched. *)
Theorem middleware_touches_only_the_stash (mw : SvcsMiddleware.t)
    (s : State) (lreq : loc) cls d (registry : pyobj) :
  heap s !! lreq = Some (OInstance cls d) ->
  SvcsMiddleware._get_registry mw s = (Ok registry, s) ->
  exists s' : State,
    SvcsMiddleware.__call__ mw (PyRef lreq) s =
      SvcsMiddleware.get_response mw (PyRef lreq) s' /\
    (forall name : string, name <> _KEY_CONTAINER ->
       (getattr (PyRef lreq) name s').1 = (getattr (PyRef lreq) name s).1) /\
    (forall (l : loc) (o : object),
       l <> lreq -> heap s !! l = Some o -> heap s' !! l = Some o) /\
    app_configs s' = app_configs s.
Proof.
  intros Hl Hreg. eexists.
  split; [exact (middleware_call_run mw s lreq cls d registry Hl Hreg)|].
  cbn [heap set_heap app_configs].
  split.
  - intros name Hname. unfold getattr. cbn [heap set_heap].
    rewrite lookup_insert_eq, Hl.
    rewrite lookup_insert_ne by congruence.
    destruct (d !! name); [reflexivity|].
    destruct (class_attr cls name); reflexivity.
  - split; [|reflexivity].
    intros l o Hne Ho. rewrite lookup_insert_ne by congruence.
    rewrite lookup_insert_ne
      by (symmetry; apply (allocated_not_fresh _ _ _ Ho)).
    exact Ho.
Qed.

(** The outcome of [_get_registry] is decided by the object installed under
    the label. *)
Lemma _get_registry_reads_label_object (mw : SvcsMiddleware.t)
    (s1 s2 : State) (l : loc) :
  app_configs s1 !! "django" = Some l ->
  app_configs s2 !! "django" = Some l ->
  heap s1 !! l = heap s2 !! l ->
  (SvcsMiddleware._get_registry mw s1).1 =
  (SvcsMiddleware._get_registry mw s2).1.
Proof.
  intros Ha1 Ha2 Hh.
  rewrite !_get_registry_cases, Ha1, Ha2, Hh.
  destruct (heap s2 !! l) as [[ | |cls d]|] eqn:Hl; try reflexivity.
  destruct (class_truth cls); [|reflexivity].
  destruct (is_mixin cls) eqn:Hc; [|reflexivity].
  unfold get_registry, bind, raise.
  rewrite (getattr_registry_mixin s1 l cls d Hh Hc).
  rewrite (getattr_registry_mixin s2 l cls d Hl Hc).
  destruct (negb (truthy (default PyNone (d !! "registry")))); [reflexivity|].
  rewrite (getattr_registry_mixin s1 l cls d Hh Hc).
  rewrite (getattr_registry_mixin s2 l cls d Hl Hc).
  reflexivity.
Qed.

(** X11. The middleware looks at the config installed under the label
    [django] and at no other: giving a registry to a different config, as
    the test fixture does, leaves the outcome of [_get_registry] as it
    was. *)
Theorem resolution_ignores_other_configs (mw : SvcsMiddleware.t) (s : State)
    (l b : loc) cb db (request registry : pyobj) :
  app_configs s !! "django" = Some l ->
  b <> l ->
  heap s !! b = Some (OInstance cb db) ->
  exists s1 : State,
    _clean_app_ctx request registry (PyRef b) s = (Ok PyNone, s1) /\
    (getattr (PyRef b) "registry" s1).1 = Ok registry /\
    (SvcsMiddleware._get_registry mw s1).1 =
      (SvcsMiddleware._get_registry mw s).1.
Proof.
  intros Ha Hne Hb.
  exists (set_heap s (<[b := OInstance cb (<["registry" := registry]> db)]>
                        (heap s))).
  split.
  { unfold _clean_app_ctx, bind, ret, setattr. rewrite Hb. reflexivity. }
  split.
  { unfold getattr. cbn [heap set_heap].
    rewrite lookup_insert_eq, lookup_insert_eq. reflexivity. }
  apply (_get_registry_reads_label_object mw _ s l); [exact Ha|exact Ha|].
  cbn [heap set_heap]. apply lookup_insert_ne. exact Hne.
Qed.

(** ** The further properties on the running scenario *)

Lemma s_boot_app :
  heap s_boot !! 1%positive = Some (OInstance C_DjangoSvcsAppConfig ∅).
Proof. vm_compute. reflexivity. Defined.

Lemma s_boot_request :
  heap s_boot !! 2%positive = Some (OInstance C_HttpRequest ∅).
Proof. vm_compute. reflexivity. Defined.

Lemma s_two_configs_app :
  heap s_two_configs !! 1%positive = Some (OInstance C_DjangoSvcsAppConfig ∅).
Proof. vm_compute. reflexivity. Defined.

Lemma s_two_configs_example :
  heap s_two_configs !! 3%positive = Some (OInstance C_ExampleAppConfig ∅).
Proof. vm_compute. reflexivity. Defined.

Lemma s_fixture_example :
  heap s_fixture !! 3%positive = Some (OInstance C_ExampleAppConfig ∅).
Proof. vm_compute. reflexivity. Defined.

Lemma s_ready_registry : heap s_ready !! 3%positive = Some (ORegistry ∅).
Proof. vm_compute. reflexivity. Defined.

(** Under a plain [AppConfig] the middleware raises [TypeError]. *)
Example s_plain_config_type_error (mw : SvcsMiddleware.t) :
  SvcsMiddleware.__call__ mw (PyRef 2) s_plain_config =
  (Raise (TypeError [PyRef 1]), s_plain_config).
Proof. vm_compute. reflexivity. Qed.

Lemma middleware_failure_leaves_no_trace_witness :
  SvcsMiddleware.__call__ (SvcsMiddleware.__init__ svcs_from) (PyRef 2)
    s_boot = (Raise (ValueError []), s_boot).
Proof.
  apply (middleware_failure_leaves_no_trace
           (SvcsMiddleware.__init__ svcs_from) (PyRef 2) s_boot
           (ValueError [])).
  vm_compute. reflexivity.
Defined.

Lemma ready_enables_middleware_witness :
  exists (s1 s2 : State) (v : pyobj) (c : loc),
    DjangoSvcsAppConfigMixin.ready (PyRef 1) s_boot = (Ok PyNone, s1) /\
    SvcsMiddleware.__call__ (SvcsMiddleware.__init__ svcs_from) (PyRef 2) s1 =
      svcs_from (PyRef 2) s2 /\
    svcs_from (PyRef 2) s2 = (Ok (PyRef c), s2) /\
    heap s2 !! c = Some (OContainer v ∅).
Proof.
  destruct (ready_enables_middleware (SvcsMiddleware.__init__ svcs_from)
              s_boot 1 2 C_DjangoSvcsAppConfig ∅ C_HttpRequest ∅
              eq_refl s_boot_app eq_refl eq_refl s_boot_request)
    as (s1 & s2 & v & c & Hready & _ & _ & _ & Hcall & Hfrom & Hc).
  exists s1, s2, v, c.
  split; [exact Hready|]. split; [exact Hcall|]. split; [exact Hfrom|exact Hc].
Defined.

Lemma ready_is_per_instance_witness :
  exists (s1 s2 : State) (ra rb : loc),
    DjangoSvcsAppConfigMixin.ready (PyRef 1) s_two_configs = (Ok PyNone, s1) /\
    get_registry (PyRef 3) s1 = (Raise (ValueError []), s1) /\
    DjangoSvcsAppConfigMixin.ready (PyRef 3) s1 = (Ok PyNone, s2) /\
    get_registry (PyRef 1) s2 = (Ok (PyRef ra), s2) /\
    get_registry (PyRef 3) s2 = (Ok (PyRef rb), s2) /\
    ra <> rb.
Proof.
  apply (ready_is_per_instance s_two_configs 1 3 C_DjangoSvcsAppConfig ∅
           C_ExampleAppConfig ∅).
  - discriminate.
  - exact s_two_configs_app.
  - exact s_two_configs_example.
  - reflexivity.
  - reflexivity.
  - left. reflexivity.
  - left. reflexivity.
Defined.

Lemma register_before_ready_fails_witness :
  register_factory (PyRef 1) "Service" (PyFunc "make_service") None None None
    s_boot = (Raise AttributeError, s_boot) /\
  register_value (PyRef 1) "Service" (PyFunc "make_service") None None None
    s_boot = (Raise AttributeError, s_boot).
Proof.
  apply (register_before_ready_fails s_boot 1 C_DjangoSvcsAppConfig ∅
           "Service" (PyFunc "make_service") None None None
           s_boot_app eq_refl (or_introl eq_refl)).
Defined.

Lemma without_stash_nothing_happens_witness :
  svcs_from (PyRef 2) s_ready = (Raise AttributeError, s_ready) /\
  get (fun _ _ => ret (PyInt 42)) (PyRef 2) ["Service"] s_ready =
    (Raise AttributeError, s_ready) /\
  overwrite_factory (PyRef 2) "Service" (PyFunc "fake_service") None None
    None s_ready = (Raise AttributeError, s_ready).
Proof.
  destruct (without_stash_nothing_happens s_ready 2 C_HttpRequest ∅
              s_ready_request eq_refl) as (Hfrom & Hget & Hover).
  split; [exact Hfrom|]. split; [apply Hget|apply Hover].
Defined.

Lemma view_registry_is_app_registry_witness :
  exists s' : State,
    SvcsMiddleware.__call__ (SvcsMiddleware.__init__ svcs_from) (PyRef 2)
      s_ready = svcs_from (PyRef 2) s' /\
    (container <- svcs_from (PyRef 2) ;; getattr container "registry") s' =
      (Ok (PyRef 3), s').
Proof.
  destruct (view_registry_is_app_registry
              (SvcsMiddleware.__init__ svcs_from) s_ready 2 C_HttpRequest ∅
              (PyRef 3) s_ready_request (s_ready_resolves _))
    as (s' & Hcall & Hreg & _).
  exists s'. split; [exact Hcall|exact Hreg].
Defined.

Lemma overwrite_in_view_overrides_registration_witness :
  exists s1 s2 : State,
    register_factory (PyRef 1) "Service" (PyFunc "make_service")
      None None None s_ready = (Ok PyNone, s1) /\
    SvcsMiddleware.__call__
      (SvcsMiddleware.__init__
         (fun request =>
            overwrite_factory request "Service" (PyFunc "fake_service")
              (Some false) None None))
      (PyRef 2) s1 = (Ok PyNone, s2) /\
    binding_of s2 (PyRef 3) "Service" =
      Some (mkRegisteredService (Factory (PyFunc "fake_service")) false
              PyNone PyNone).
Proof.
  destruct (overwrite_in_view_overrides_registration s_ready 1 3 2
              C_DjangoSvcsAppConfig {[ "registry" := PyRef 3 ]}
              C_HttpRequest ∅ ∅ "Service"
              (PyFunc "make_service") (PyFunc "fake_service")
              None (Some false) None None None None
              eq_refl s_ready_app eq_refl eq_refl eq_refl s_ready_registry
              s_ready_request ltac:(discriminate))
    as (s1 & s2 & Hreg & _ & Hcall & _ & Hbind & _).
  exists s1, s2. split; [exact Hreg|]. split; [exact Hcall|exact Hbind].
Defined.


Lemma middleware_touches_only_the_stash_witness :
  exists s' : State,
    SvcsMiddleware.__call__ (SvcsMiddleware.__init__ svcs_from) (PyRef 2)
      s_ready = svcs_from (PyRef 2) s' /\
    heap s' !! 1%positive = heap s_ready !! 1%positive /\
    app_configs s' = app_configs s_ready.
Proof.
  destruct (middleware_touches_only_the_stash
              (SvcsMiddleware.__init__ svcs_from) s_ready 2 C_HttpRequest ∅
              (PyRef 3) s_ready_request (s_ready_resolves _))
    as (s' & Hcall & _ & Hframe & Happs).
  exists s'. split; [exact Hcall|]. split; [|exact Happs].
  rewrite (Hframe 1%positive _ ltac:(discriminate) s_ready_app).
  symmetry. exact s_ready_app.
Defined.

Lemma resolution_ignores_other_configs_witness :
  exists s1 : State,
    _clean_app_ctx PyNone (PyRef 4) (PyRef 3) s_fixture = (Ok PyNone, s1) /\
    get_registry (PyRef 3) s1 = (Ok (PyRef 4), s1) /\
    (SvcsMiddleware._get_registry (SvcsMiddleware.__init__ svcs_from) s1).1 =
      Raise (ValueError []).
Proof.
  destruct (resolution_ignores_other_configs
              (SvcsMiddleware.__init__ svcs_from) s_fixture 1 3
              C_ExampleAppConfig ∅ PyNone (PyRef 4)
              eq_refl ltac:(discriminate) s_fixture_example)
    as (s1 & Hfix & _ & Hres).
  exists s1. split; [exact Hfix|]. split.
  - injection Hfix as <-. vm_compute. reflexivity.
  - rewrite Hres. vm_compute. reflexivity.
Defined.
